(** * telldus-core-mqtt: the MQTT bridge of [src/main.py]

    A shallow embedding of the handlers of [src/main.py]: the mapping tables
    [TYPES] and [METHODS], [publish_mqtt], the inbound command router
    [subscribe_device.on_message], the three telldus-core event handlers
    and [initial_publish].

    Effects are kept as the code has them.  A handler logs, calls the
    controller, publishes on an MQTT client and may raise; a run of a
    handler is therefore a trace of events together with an outcome, which
    is either a returned value or the Python exception that ended the run.

    What the handlers import and do not define ([src.telldus]: the
    tellcore constants, the [Device], [Sensor] and [Command] topic
    builders, the controller commands; the paho client; [bytes.decode]
    and [int]) is a field of the environment [Env], so every theorem
    holds whatever these collaborators compute. *)

From Stdlib Require Import ZArith Ascii String.
From stdpp Require Import base option list gmap strings pretty.

Local Open Scope string_scope.
Local Open Scope Z_scope.
Local Open Scope list_scope.

(** ** Python values and strings *)

(** [str.split(sep)] for a one-character separator: the pieces between the
    separators, empty pieces kept, so the result is never empty. *)
Fixpoint split (sep : ascii) (s : string) : list string :=
  match s with
  | EmptyString => [EmptyString]
  | String c s' =>
      if Ascii.eqb c sep then EmptyString :: split sep s'
      else match split sep s' with
           | [] => [String c EmptyString]
           | piece :: pieces => String c piece :: pieces
           end
  end.

(** [needle in hay] on strings: substring containment. *)
Fixpoint str_in (needle hay : string) : bool :=
  String.prefix needle hay ||
  match hay with
  | EmptyString => false
  | String _ hay' => str_in needle hay'
  end.

(** An inbound MQTT message: [msg.topic] is a [str], [msg.payload] is
    [bytes]. *)
Record Message := { topic : string; payload : string }.

(** The values that travel through the handlers as event data, as
    arguments of the topic builders and as payloads. *)
Inductive PyVal :=
| VInt (n : Z)
| VStr (s : string).

(** [str(v)], as [str.format] renders a [{0}] field. *)
Definition py_str (v : PyVal) : string :=
  match v with
  | VInt n => pretty n
  | VStr s => s
  end.

(** An argument of a log record, kept beside the format as [logging]
    keeps it: a value, or the message object itself. *)
Inductive LogArg :=
| AVal (v : PyVal)
| AMsg (m : Message).

(** ** Events, exceptions and the handler monad *)

Inductive Level := DEBUG | INFO | ERROR | CRITICAL.

(** The four MQTT connections opened at start-up. *)
Inductive Client := mqtt_sensor | mqtt_device | mqtt_command | mqtt_subscription.

(** The commands of the controller object [d], with the arguments the
    router passes: the device id is the [str] cut out of the topic. *)
Inductive Command :=
| dim (device_id : string) (level : Z)
| turn_off (device_id : string)
| turn_on_once (device_id : string)
| turn_on (device_id : string).

Definition command_device_id (c : Command) : string :=
  match c with
  | dim i _ | turn_off i | turn_on_once i | turn_on i => i
  end.

Inductive Event :=
| Log (lvl : Level) (fmt : string) (args : list LogArg)
| Call (c : Command)
| Publish (client : Client) (tpc : string) (msg : PyVal) (retain : bool).

Inductive Exn :=
| IndexError
| ValueError
| UnicodeDecodeError
| UnboundLocalError (var : string)
| ControllerError (c : Command).

(** A run: what happened, in order, and how it ended. *)
Record M (A : Type) := Run { trace : list Event; outcome : Exn + A }.
Arguments Run {A} _ _.
Arguments trace {A} _.
Arguments outcome {A} _.

#[global] Instance M_ret : MRet M := λ A a, Run [] (inr a).
#[global] Instance M_bind : MBind M := λ A B f m,
  match outcome m with
  | inl e => Run (trace m) (inl e)
  | inr a => Run (trace m ++ trace (f a)) (outcome (f a))
  end.

Definition emit (e : Event) : M unit := Run [e] (inr tt).
Definition raise {A} (e : Exn) : M A := Run [] (inl e).

(** [l[i]] on a list: [IndexError] out of range. *)
Definition index {A} (l : list A) (i : nat) : M A :=
  match l !! i with
  | Some a => mret a
  | None => raise IndexError
  end.

(** Reading a local variable that an earlier branch may not have bound. *)
Definition local {A} (var : string) (v : option A) : M A :=
  match v with
  | Some a => mret a
  | None => raise (UnboundLocalError var)
  end.

(** What a trace contains. *)
Definition calls (t : list Event) : list Command :=
  omap (λ e, match e with Call c => Some c | _ => None end) t.

Definition publishes (t : list Event) : list (Client * string * PyVal * bool) :=
  omap (λ e, match e with Publish c tp m r => Some (c, tp, m, r) | _ => None end) t.

Definition logged (lvl : Level) (t : list Event) : list (string * list LogArg) :=
  omap (λ e, match e with
             | Log l f a => match lvl, l with
                            | DEBUG, DEBUG | INFO, INFO | ERROR, ERROR
                            | CRITICAL, CRITICAL => Some (f, a)
                            | _, _ => None
                            end
             | _ => None
             end) t.

Definition returns {A} (m : M A) : Prop := ∃ a, outcome m = inr a.

(** ** The collaborators of [main.py] *)

(** The tellcore constants read through [const]: the device method codes
    and the sensor data-type codes. *)
Record Const := {
  TELLSTICK_TURNON : Z;
  TELLSTICK_TURNOFF : Z;
  TELLSTICK_BELL : Z;
  TELLSTICK_TOGGLE : Z;
  TELLSTICK_DIM : Z;
  TELLSTICK_LEARN : Z;
  TELLSTICK_EXECUTE : Z;
  TELLSTICK_UP : Z;
  TELLSTICK_DOWN : Z;
  TELLSTICK_STOP : Z;
  TELLSTICK_TEMPERATURE : Z;
  TELLSTICK_HUMIDITY : Z;
  TELLSTICK_RAINRATE : Z;
  TELLSTICK_RAINTOTAL : Z;
  TELLSTICK_WINDDIRECTION : Z;
  TELLSTICK_WINDAVERAGE : Z;
  TELLSTICK_WINDGUST : Z
}.

(** One element of the list that [create_topics] returns: a dict that may
    hold a ['config'] and a ['state'] entry, each a topic with its data. *)
Record TopicDict := {
  config : option (string * PyVal);
  state : option (string * PyVal)
}.

(** The interface that [telldus.Sensor], [telldus.Device] and
    [telldus.Command] offer to [main.py]; [Id] is the identifier given to
    [create_topic], [Arg] what [get] is asked for. *)
Record Builder (Id Arg : Type) := {
  entities : Type;
  get : Arg → entities;
  create_topics : entities → list TopicDict;
  create_topic : Id → string → string;
  create_topic_data : string → PyVal → PyVal
}.
Arguments entities {Id Arg} _.
Arguments get {Id Arg} _ _.
Arguments create_topics {Id Arg} _ _.
Arguments create_topic {Id Arg} _ _ _.
Arguments create_topic_data {Id Arg} _ _ _.

Record Env := {
  const : Const;
  (** [bytes.decode()]; [None] stands for [UnicodeDecodeError] *)
  bytes_decode : string → option string;
  (** [int(str)]; [None] stands for [ValueError] *)
  py_int : string → option Z;
  (** [client.publish(topic, msg, retain=...)[0]], the acknowledgement code *)
  client_publish : Client → string → PyVal → bool → Z;
  (** a controller command of [d]: the status it returns, or what it raises *)
  d_command : Command → Exn + bool;
  s : Builder Z (option Z);
  d : Builder Z unit;
  raw : Builder PyVal string;
  (** [raw.serialized[key]] once [raw.get(data)] has run *)
  raw_serialized : string → string → PyVal
}.

(** A dict display [{k1: v1, k2: v2, ...}]: the items are stored from left
    to right, a later item replacing an earlier one with an equal key. *)
Definition dict_literal (items : list (Z * string)) : gmap Z string :=
  foldl (λ m kv, <[kv.1 := kv.2]> m) ∅ items.

(** The double quote, and a text between double quotes, for the log
    formats. *)
Definition dq : string := String "034"%char EmptyString.
Definition q (text : string) : string := dq +:+ text +:+ dq.

Section Bridge.
Context (E : Env).

Let c := const E.

Definition TYPES : gmap Z string :=
  dict_literal [(TELLSTICK_TEMPERATURE c, "temperature");
                (TELLSTICK_HUMIDITY c, "humidity");
                (TELLSTICK_RAINRATE c, "rainrate");
                (TELLSTICK_RAINTOTAL c, "raintotal");
                (TELLSTICK_WINDDIRECTION c, "winddirection");
                (TELLSTICK_WINDAVERAGE c, "windaverage");
                (TELLSTICK_WINDGUST c, "windgust")].

Definition METHODS : gmap Z string :=
  dict_literal [(TELLSTICK_TURNON c, "turn on");
                (TELLSTICK_TURNOFF c, "turn off");
                (TELLSTICK_BELL c, "bell");
                (TELLSTICK_TOGGLE c, "toggle");
                (TELLSTICK_DIM c, "dim");
                (TELLSTICK_LEARN c, "learn");
                (TELLSTICK_EXECUTE c, "execute");
                (TELLSTICK_UP c, "up");
                (TELLSTICK_DOWN c, "down");
                (TELLSTICK_STOP c, "stop")].

(** [publish_mqtt(client, topic, msg)]; the lock of the [with] statement
    orders the publishes of the threads and leaves no mark on the run of
    one handler. *)
Definition publish_mqtt (client : Client) (tpc : string) (msg : PyVal) : M unit :=
  emit (Publish client tpc msg true);;
  let result := client_publish E client tpc msg true in
  if result =? 0 then
    emit (Log INFO ("Send " +:+ q "%s" +:+ " to topic " +:+ q "%s") [AVal msg; AVal (VStr tpc)])
  else
    emit (Log ERROR ("Failed to send message to topic " +:+ q "%s") [AVal (VStr tpc)]).

(** [d.dim(...)], [d.turn_off(...)], ...: the call is made, then its
    status comes back or its exception propagates. *)
Definition command (cmd : Command) : M bool := Run [Call cmd] (d_command E cmd).

(** [msg.payload.decode()] *)
Definition payload_decode (msg : Message) : M string :=
  match bytes_decode E (payload msg) with
  | Some text => mret text
  | None => raise UnicodeDecodeError
  end.

(** [int(text)] *)
Definition int (text : string) : M Z :=
  match py_int E text with
  | Some n => mret n
  | None => raise ValueError
  end.

(** [subscribe_device.on_message(client, userdata, msg)] *)
Definition on_message (msg : Message) : M unit :=
  text ← payload_decode msg;
  emit (Log INFO ("Received " +:+ q "%s" +:+ " from " +:+ q "%s" +:+ " topic")
            [AVal (VStr text); AVal (VStr (topic msg))]);;
  device_id ← index (split "/" (topic msg)) 1;
  module_ ← index (split "/" (topic msg)) 2;
  action ← index (split "/" (topic msg)) 3;
  let cmd_status := false in
  text ← payload_decode msg;
  payload ← int text;
  if String.eqb module_ "light" then
    if String.eqb action "dim" then
      emit (Log INFO ("[DEVICE] Sending command DIM " +:+ q "%s" +:+ " to device id " +:+ q "%s")
                [AVal (VInt payload); AVal (VStr device_id)]);;
      cmd_status ← command (dim device_id payload);
      mret tt
    else if String.eqb action "set" then
      if payload =? 0 then
        emit (Log INFO ("[DEVICE] Sending light OFF " +:+ q "%s" +:+ " to device id " +:+ q "%s")
                  [AVal (VInt payload); AVal (VStr device_id)]);;
        cmd_status ← command (turn_off device_id);
        mret tt
      else
        emit (Log INFO ("[DEVICE] Sending light ON ONCE " +:+ q "%s" +:+ " to device id " +:+ q "%s")
                  [AVal (VInt payload); AVal (VStr device_id)]);;
        cmd_status ← command (turn_on_once device_id);
        mret tt
    else
      emit (Log INFO ("[DEVICE] Unknown light action " +:+ q "%s") [AVal (VStr action)])
  else if String.eqb module_ "brightness" then
    emit (Log INFO ("[DEVICE] Sending command DIM (brightness) " +:+ q "%s" +:+ " to device id " +:+ q "%s")
              [AVal (VInt payload); AVal (VStr device_id)]);;
    cmd_status ← command (dim device_id payload);
    mret tt
  else if String.eqb module_ "switch" then
    if payload =? TELLSTICK_TURNON c then
      emit (Log INFO ("[DEVICE] Sending command ON to device id " +:+ q "%s") [AVal (VStr device_id)]);;
      cmd_status ← command (turn_on device_id);
      mret tt
    else if payload =? TELLSTICK_TURNOFF c then
      emit (Log INFO ("[DEVICE] Sending command OFF to device id " +:+ dq +:+ "%s") [AVal (VStr device_id)]);;
      cmd_status ← command (turn_off device_id);
      mret tt
    else mret tt
  else if negb cmd_status then
    emit (Log ERROR ("[DEVICE] Command " +:+ q "%s" +:+ " not supported, please open a github issue with this message.")
              [AMsg msg])
  else mret tt.

(** [initial_publish(client_mqtt, topics)] *)
Fixpoint initial_publish (client_mqtt : Client) (topics : list TopicDict) : M unit :=
  match topics with
  | [] => mret tt
  | tpc :: topics' =>
      match config tpc with
      | Some (t, data) => publish_mqtt client_mqtt t data
      | None => mret tt
      end;;
      match state tpc with
      | Some (t, data) => publish_mqtt client_mqtt t data
      | None => mret tt
      end;;
      initial_publish client_mqtt topics'
  end.

(** [raw_event(data, controller_id, cid)] *)
Definition raw_event (data : string) (controller_id cid : Z) : M unit :=
  if negb (str_in "command" data) then mret tt
  else
    let command_topics := create_topics (raw E) (get (raw E) data) in
    initial_publish mqtt_command command_topics;;
    let tpc := create_topic (raw E) (raw_serialized E data "id") "binary_sensor" in
    let topic_data := create_topic_data (raw E) "binary_sensor" (raw_serialized E data "method") in
    publish_mqtt mqtt_command tpc topic_data.

(** Line 130: [METHODS.get(method, 'UNKNOWN METHOD {0}'.format(method))] *)
Definition method_string (method : Z) : string :=
  default ("UNKNOWN METHOD " +:+ pretty method) (METHODS !! method).

(** Line 159: [TYPES.get(data_type, 'UNKNOWN METHOD {0}'.format(data_type))] *)
Definition type_string (data_type : Z) : string :=
  default ("UNKNOWN METHOD " +:+ pretty data_type) (TYPES !! data_type).

(** The test of line 136 on the hardcoded dimmer ids. *)
Definition is_dimmer (id_ : Z) : bool :=
  (id_ =? 8) || (id_ =? 9) || (id_ =? 10) || (id_ =? 11) || (id_ =? 12).

(** [device_event(id_, method, data, cid)]; [topic] and [topic_data] are
    locals that only some branches bind. *)
Definition device_event (id_ method : Z) (data : PyVal) (cid : Z) : M unit :=
  let string := "[DEVICE] " +:+ pretty id_ +:+ " -> " +:+ method_string method
                +:+ " (" +:+ pretty method +:+ ")" in
  let string := if method =? TELLSTICK_DIM c
                then string +:+ " [" +:+ py_str data +:+ "]" else string in
  '(tpc, topic_data) ←
    (if is_dimmer id_ then
       emit (Log DEBUG "[DEVICE EVENT DIMMER LIGHT] %s" [AVal (VStr string)]);;
       if method =? TELLSTICK_TURNOFF c then
         mret (Some (create_topic (d E) id_ "light"),
               Some (create_topic_data (d E) "light" (VInt 0)))
       else if method =? TELLSTICK_TURNON c then
         mret (Some (create_topic (d E) id_ "light"),
               Some (create_topic_data (d E) "light" (VInt 255)))
       else if method =? TELLSTICK_DIM c then
         mret (Some (create_topic (d E) id_ "brightness"),
               Some (create_topic_data (d E) "brightness" data))
       else mret (None, None)
     else if method =? TELLSTICK_DIM c then
       emit (Log DEBUG "[DEVICE EVENT LIGHT] %s" [AVal (VStr string)]);;
       mret (Some (create_topic (d E) id_ "brightness"),
             Some (create_topic_data (d E) "brightness" data))
     else
       emit (Log DEBUG "[DEVICE EVENT SWITCH] %s" [AVal (VStr string)]);;
       mret (Some (create_topic (d E) id_ "switch"),
             Some (create_topic_data (d E) "switch" (VInt method))));
  tpc ← local "topic" tpc;
  topic_data ← local "topic_data" topic_data;
  publish_mqtt mqtt_device tpc topic_data.

(** [sensor_event(protocol, model, id_, data_type, value, timestamp, cid)] *)
Definition sensor_event (protocol model : PyVal) (id_ data_type : Z)
    (value : PyVal) (timestamp cid : Z) : M unit :=
  let string := "[SENSOR] " +:+ pretty id_ +:+ " " +:+ py_str model
                +:+ " (" +:+ type_string data_type +:+ ") = " +:+ py_str value in
  emit (Log DEBUG string []);;
  let sensor_topics := create_topics (s E) (get (s E) (Some id_)) in
  initial_publish mqtt_sensor sensor_topics;;
  let tpc := create_topic (s E) id_ (type_string data_type) in
  let data := create_topic_data (s E) (type_string data_type) value in
  publish_mqtt mqtt_sensor tpc data.

(** The publishes of the start-up sweep, lines 217 to 224. *)
Definition startup : M unit :=
  let sensors_topics := create_topics (s E) (get (s E) None) in
  initial_publish mqtt_sensor sensors_topics;;
  let devices_topics := create_topics (d E) (get (d E) tt) in
  initial_publish mqtt_device devices_topics.

End Bridge.

(** ** A concrete environment, to run the handlers *)

(** The codes of telldus-core's [telldus-core.h], which tellcore's
    [constants] module repeats. *)
Definition tellcore_const : Const := {|
  TELLSTICK_TURNON := 1;
  TELLSTICK_TURNOFF := 2;
  TELLSTICK_BELL := 4;
  TELLSTICK_TOGGLE := 8;
  TELLSTICK_DIM := 16;
  TELLSTICK_LEARN := 32;
  TELLSTICK_EXECUTE := 64;
  TELLSTICK_UP := 128;
  TELLSTICK_DOWN := 256;
  TELLSTICK_STOP := 512;
  TELLSTICK_TEMPERATURE := 1;
  TELLSTICK_HUMIDITY := 2;
  TELLSTICK_RAINRATE := 4;
  TELLSTICK_RAINTOTAL := 8;
  TELLSTICK_WINDDIRECTION := 16;
  TELLSTICK_WINDAVERAGE := 32;
  TELLSTICK_WINDGUST := 64
|}.

(** The value of a decimal digit. *)
Definition digit (a : ascii) : option Z :=
  let n := Z.of_N (N_of_ascii a) - 48 in
  if (0 <=? n) && (n <=? 9) then Some n else None.

Fixpoint digits (text : string) (acc : Z) : option Z :=
  match text with
  | EmptyString => Some acc
  | String a text' => n ← digit a; digits text' (10 * acc + n)
  end.

(** [int] on the plain decimal numerals: digits, with a minus sign or
    none; every other text is refused. *)
Definition decimal_int (text : string) : option Z :=
  match text with
  | EmptyString => None
  | String "-" EmptyString => None
  | String "-" text' => Z.opp <$> digits text' 0
  | _ => digits text 0
  end.

(** [bytes.decode] on the payloads made of ASCII bytes, which decode to
    themselves; a byte above 127 is refused. *)
Fixpoint ascii_decode (bytes : string) : option string :=
  match bytes with
  | EmptyString => Some EmptyString
  | String a bytes' =>
      if (N_of_ascii a <? 128)%N then String a <$> ascii_decode bytes' else None
  end.

(** Modelled from the spec: [create_topic] of [src.telldus], which is not
    part of the sources at hand.  The spec's [build_topic(prefix,
    entity_id, capability, suffix)] is pure string composition, the
    segments joined by a slash; the topic of a state publish ends in
    [state]. *)
Definition build_topic (prefix entity_id capability suffix : string) : string :=
  prefix +:+ "/" +:+ entity_id +:+ "/" +:+ capability +:+ "/" +:+ suffix.

(** A builder after the spec: state topics under the prefix [telldus], the
    value as the data, no entity known to [get]. *)
Definition spec_builder (Arg : Type) : Builder Z Arg := {|
  entities := unit;
  get := λ _, tt;
  create_topics := λ _, [];
  create_topic := λ id_ capability, build_topic "telldus" (pretty id_) capability "state";
  create_topic_data := λ _ value, value
|}.

Definition spec_raw_builder : Builder PyVal string := {|
  entities := unit;
  get := λ _, tt;
  create_topics := λ _, [];
  create_topic := λ id_ capability, build_topic "telldus" (py_str id_) capability "state";
  create_topic_data := λ _ value, value
|}.

(** The bridge between a broker that acknowledges every publish and a
    controller that accepts every command. *)
Definition test_env : Env := {|
  const := tellcore_const;
  bytes_decode := ascii_decode;
  py_int := decimal_int;
  client_publish := λ _ _ _ _, 0;
  d_command := λ _, inr true;
  s := spec_builder (option Z);
  d := spec_builder unit;
  raw := spec_raw_builder;
  raw_serialized := λ _ _, VInt 0
|}.

(** ** Observations used by the statements *)

(** Every publish of a trace carries [retain=True]. *)
Definition retained (t : list Event) : Prop :=
  Forall (λ p, p.2 = true) (publishes t).

(** The keys of [METHODS] and of [TYPES], as the displays list them. *)
Definition method_codes (c : Const) : list Z :=
  [TELLSTICK_TURNON c; TELLSTICK_TURNOFF c; TELLSTICK_BELL c; TELLSTICK_TOGGLE c;
   TELLSTICK_DIM c; TELLSTICK_LEARN c; TELLSTICK_EXECUTE c; TELLSTICK_UP c;
   TELLSTICK_DOWN c; TELLSTICK_STOP c].

(** The hardcoded dimmer ids of line 136. *)
Definition dimmer_ids : list Z := [8; 9; 10; 11; 12].

(** The integer that the payload of a message stands for, if any:
    [int(msg.payload.decode())]. *)
Definition payload_int (E : Env) (msg : Message) : option Z :=
  bytes_decode E (payload msg) ≫= py_int E.

(** The keys of [TYPES], as the display lists them. *)
Definition type_codes (c : Const) : list Z :=
  [TELLSTICK_TEMPERATURE c; TELLSTICK_HUMIDITY c; TELLSTICK_RAINRATE c;
   TELLSTICK_RAINTOTAL c; TELLSTICK_WINDDIRECTION c; TELLSTICK_WINDAVERAGE c;
   TELLSTICK_WINDGUST c].

(** The publishes that a list of topic dicts asks for: for each dict in
    turn its ['config'] entry, then its ['state'] entry, where present. *)
Definition owed (client : Client) (topics : list TopicDict)
    : list (Client * string * PyVal * bool) :=
  topics ≫= λ tpc,
    match config tpc with
    | Some (t, data) => [(client, t, data, true)]
    | None => []
    end ++
    match state tpc with
    | Some (t, data) => [(client, t, data, true)]
    | None => []
    end.

(** The publishes that the broker did not acknowledge with the code 0. *)
Definition refused (E : Env) (pubs : list (Client * string * PyVal * bool))
    : list (Client * string * PyVal * bool) :=
  filter (λ p, client_publish E p.1.1.1 p.1.1.2 p.1.2 p.2 ≠ 0) pubs.

(** A string without a slash. *)
Fixpoint slash_free (text : string) : bool :=
  match text with
  | EmptyString => true
  | String a text' => negb (Ascii.eqb a "/") && slash_free text'
  end.

(** The bridge in front of a broker that refuses every publish. *)
Definition refusing_env : Env := {|
  const := tellcore_const;
  bytes_decode := ascii_decode;
  py_int := decimal_int;
  client_publish := λ _ _ _ _, 4;
  d_command := λ _, inr true;
  s := spec_builder (option Z);
  d := spec_builder unit;
  raw := spec_raw_builder;
  raw_serialized := λ _ _, VInt 0
|}.

(** The bridge in front of a controller whose commands all raise. *)
Definition failing_env : Env := {|
  const := tellcore_const;
  bytes_decode := ascii_decode;
  py_int := decimal_int;
  client_publish := λ _ _ _ _, 0;
  d_command := λ cmd, inl (ControllerError cmd);
  s := spec_builder (option Z);
  d := spec_builder unit;
  raw := spec_raw_builder;
  raw_serialized := λ _ _, VInt 0
|}.

(** The events of a handler that keeps to [client]: it logs, and it
    publishes on that client; it invokes no controller command. *)
Definition stays_on (client : Client) (e : Event) : Prop :=
  match e with
  | Log _ _ _ => True
  | Call _ => False
  | Publish c _ _ _ => c = client
  end.

(** The events of a handler that publishes nothing. *)
Definition no_publish (e : Event) : Prop :=
  match e with
  | Publish _ _ _ _ => False
  | _ => True
  end.

(** The methods that the dimmer branch of [device_event] handles. *)
Definition dimmer_methods (c : Const) : list Z :=
  [TELLSTICK_TURNOFF c; TELLSTICK_TURNON c; TELLSTICK_DIM c].

(** ** Runs on concrete events *)

Example split_command_topic :
  split "/" "telldus/5/switch/set" = ["telldus"; "5"; "switch"; "set"].
Proof. reflexivity. Qed.

Example split_keeps_empty_pieces : split "/" "/a//" = [EmptyString; "a"; EmptyString; EmptyString].
Proof. reflexivity. Qed.

Example command_in_raw_data :
  str_in "command" "class:command;protocol:arctech;" = true ∧
  str_in "command" "class:sensor;protocol:fineoffset;" = false.
Proof. split; reflexivity. Qed.

Example decimal_int_examples :
  decimal_int "128" = Some 128 ∧ decimal_int "-7" = Some (-7) ∧
  decimal_int "on" = None ∧ decimal_int EmptyString = None.
Proof. repeat split; reflexivity. Qed.

Example switch_on_5 :
  on_message test_env {| topic := "telldus/5/switch/set"; payload := "1" |} =
  Run [Log INFO ("Received " +:+ q "%s" +:+ " from " +:+ q "%s" +:+ " topic")
           [AVal (VStr "1"); AVal (VStr "telldus/5/switch/set")];
       Log INFO ("[DEVICE] Sending command ON to device id " +:+ q "%s") [AVal (VStr "5")];
       Call (turn_on "5")]
      (inr tt).
Proof. vm_compute. reflexivity. Qed.

Example dimmer_8_off :
  device_event test_env 8 2 (VStr "0") 0 =
  Run [Log DEBUG "[DEVICE EVENT DIMMER LIGHT] %s" [AVal (VStr "[DEVICE] 8 -> turn off (2)")];
       Publish mqtt_device "telldus/8/light/state" (VInt 0) true;
       Log INFO ("Send " +:+ q "%s" +:+ " to topic " +:+ q "%s")
           [AVal (VInt 0); AVal (VStr "telldus/8/light/state")]]
      (inr tt).
Proof. vm_compute. reflexivity. Qed.

(** ** Runs and traces *)

Lemma trace_bind {A B} (m : M A) (f : A → M B) :
  trace (m ≫= f) =
  match outcome m with
  | inl _ => trace m
  | inr a => trace m ++ trace (f a)
  end.
Proof. unfold mbind, M_bind. destruct (outcome m); reflexivity. Qed.

Lemma outcome_bind {A B} (m : M A) (f : A → M B) :
  outcome (m ≫= f) =
  match outcome m with
  | inl e => inl e
  | inr a => outcome (f a)
  end.
Proof. unfold mbind, M_bind. destruct (outcome m); reflexivity. Qed.

Lemma publishes_app t1 t2 : publishes (t1 ++ t2) = publishes t1 ++ publishes t2.
Proof. apply omap_app. Qed.

Lemma retained_nil : retained [].
Proof. constructor. Qed.

Lemma retained_app t1 t2 : retained t1 → retained t2 → retained (t1 ++ t2).
Proof. unfold retained. rewrite publishes_app. apply Forall_app_2. Qed.

Lemma retained_bind {A B} (m : M A) (f : A → M B) :
  retained (trace m) → (∀ a, retained (trace (f a))) → retained (trace (m ≫= f)).
Proof.
  intros Hm Hf. rewrite trace_bind.
  destruct (outcome m); [assumption | by apply retained_app].
Qed.

Lemma retained_ret {A} (a : A) : retained (trace (mret a : M A)).
Proof. apply retained_nil. Qed.

Lemma retained_raise {A} e : retained (trace (raise e : M A)).
Proof. apply retained_nil. Qed.

Lemma retained_log lvl fmt args : retained (trace (emit (Log lvl fmt args))).
Proof. apply retained_nil. Qed.

Lemma retained_index {A} (l : list A) i : retained (trace (index l i)).
Proof. unfold index. destruct (l !! i); apply retained_nil. Qed.

Lemma retained_local {A} var (v : option A) : retained (trace (local var v)).
Proof. destruct v; apply retained_nil. Qed.

Lemma retained_command E cmd : retained (trace (command E cmd)).
Proof. apply retained_nil. Qed.

Lemma retained_payload_decode E msg : retained (trace (payload_decode E msg)).
Proof. unfold payload_decode. destruct (bytes_decode _ _); apply retained_nil. Qed.

Lemma retained_int E text : retained (trace (int E text)).
Proof. unfold int. destruct (py_int _ _); apply retained_nil. Qed.

Lemma publish_mqtt_trace E client tpc msg :
  trace (publish_mqtt E client tpc msg) =
  [Publish client tpc msg true;
   if client_publish E client tpc msg true =? 0
   then Log INFO ("Send " +:+ q "%s" +:+ " to topic " +:+ q "%s") [AVal msg; AVal (VStr tpc)]
   else Log ERROR ("Failed to send message to topic " +:+ q "%s") [AVal (VStr tpc)]].
Proof.
  unfold publish_mqtt. rewrite trace_bind. cbn.
  destruct (client_publish E client tpc msg true =? 0); reflexivity.
Qed.

Lemma publish_mqtt_outcome E client tpc msg :
  outcome (publish_mqtt E client tpc msg) = inr tt.
Proof.
  unfold publish_mqtt. rewrite outcome_bind. cbn.
  destruct (client_publish E client tpc msg true =? 0); reflexivity.
Qed.

Lemma retained_publish_mqtt E client tpc msg :
  retained (trace (publish_mqtt E client tpc msg)).
Proof.
  rewrite publish_mqtt_trace. unfold retained.
  destruct (client_publish E client tpc msg true =? 0); cbn; repeat constructor.
Qed.

Create HintDb retain.
#[global] Hint Resolve retained_nil retained_ret retained_raise retained_log
  retained_index retained_local retained_command retained_payload_decode
  retained_int retained_publish_mqtt : retain.

Ltac retain_step :=
  first [ solve [ auto with retain ]
        | apply retained_bind; [| intros ? ]
        | match goal with |- retained (trace (if ?b then _ else _)) => destruct b end
        | match goal with |- retained (trace (match ?x with _ => _ end)) => destruct x end ].

Lemma retained_initial_publish E client topics :
  retained (trace (initial_publish E client topics)).
Proof.
  induction topics as [| [cfg st] topics IH]; cbn [initial_publish].
  - auto with retain.
  - repeat retain_step.
Qed.

#[global] Hint Resolve retained_initial_publish : retain.

Lemma retained_on_message E msg : retained (trace (on_message E msg)).
Proof. unfold on_message. repeat retain_step. Qed.

Lemma retained_raw_event E data controller_id cid :
  retained (trace (raw_event E data controller_id cid)).
Proof. unfold raw_event. repeat retain_step. Qed.

Lemma retained_device_event E id_ method data cid :
  retained (trace (device_event E id_ method data cid)).
Proof. unfold device_event. repeat retain_step. Qed.

Lemma retained_sensor_event E protocol model id_ data_type value timestamp cid :
  retained (trace (sensor_event E protocol model id_ data_type value timestamp cid)).
Proof. unfold sensor_event. repeat retain_step. Qed.

Lemma retained_startup E : retained (trace (startup E)).
Proof. unfold startup. repeat retain_step. Qed.

(** ** The publisher *)

(** C7: every outbound publish sets the retain flag.  [publish_mqtt] hands
    its client, topic and payload to the client's publish once, with
    [retain=True]; and every publish made by a handler of the bridge, by
    [initial_publish] or by the start-up sweep is retained, these runs
    publishing through [publish_mqtt] only. *)
Theorem every_publish_retained (E : Env) :
  (∀ client tpc msg,
     publishes (trace (publish_mqtt E client tpc msg)) = [(client, tpc, msg, true)]) ∧
  (∀ client topics, retained (trace (initial_publish E client topics))) ∧
  (∀ msg, retained (trace (on_message E msg))) ∧
  (∀ data controller_id cid, retained (trace (raw_event E data controller_id cid))) ∧
  (∀ id_ method data cid, retained (trace (device_event E id_ method data cid))) ∧
  (∀ protocol model id_ data_type value timestamp cid,
     retained (trace (sensor_event E protocol model id_ data_type value timestamp cid))) ∧
  retained (trace (startup E)).
Proof.
  split.
  { intros client tpc msg. rewrite publish_mqtt_trace.
    destruct (client_publish E client tpc msg true =? 0); reflexivity. }
  repeat split; intros.
  - apply retained_initial_publish.
  - apply retained_on_message.
  - apply retained_raw_event.
  - apply retained_device_event.
  - apply retained_sensor_event.
  - apply retained_startup.
Qed.

(** C8: [publish_mqtt] makes exactly one publish attempt and returns
    normally whatever the acknowledgement code; the code 0 gives one
    record at level info and none at level error, any other code one
    record at level error and none at level info. *)
Theorem publish_mqtt_one_attempt (E : Env) (client : Client) (tpc : string) (msg : PyVal) :
  let run := publish_mqtt E client tpc msg in
  let rc := client_publish E client tpc msg true in
  publishes (trace run) = [(client, tpc, msg, true)] ∧
  outcome run = inr tt ∧
  logged INFO (trace run) =
    (if rc =? 0
     then [("Send " +:+ q "%s" +:+ " to topic " +:+ q "%s", [AVal msg; AVal (VStr tpc)])]
     else []) ∧
  logged ERROR (trace run) =
    (if rc =? 0
     then []
     else [("Failed to send message to topic " +:+ q "%s", [AVal (VStr tpc)])]).
Proof.
  cbv zeta. rewrite publish_mqtt_trace, publish_mqtt_outcome.
  destruct (client_publish E client tpc msg true =? 0); repeat split; reflexivity.
Qed.

(** ** The mapping tables *)

Lemma dict_literal_snoc items k v :
  dict_literal (items ++ [(k, v)]) = <[k := v]> (dict_literal items).
Proof. unfold dict_literal. rewrite foldl_app. reflexivity. Qed.

(** The dict of a display is the map of its items read from the right. *)
Lemma dict_literal_reverse items :
  dict_literal items = list_to_map (reverse items).
Proof.
  induction items as [| [k v] items IH] using rev_ind; [reflexivity |].
  rewrite dict_literal_snoc, reverse_app, IH. reflexivity.
Qed.

Lemma dict_literal_lookup items k v :
  NoDup items.*1 → (k, v) ∈ items → dict_literal items !! k = Some v.
Proof.
  intros Hnd Hin. rewrite dict_literal_reverse.
  apply elem_of_list_to_map_1.
  - by rewrite fmap_reverse, reverse_Permutation.
  - by apply elem_of_reverse.
Qed.

Lemma dict_literal_lookup_None items k :
  k ∉ items.*1 → dict_literal items !! k = None.
Proof.
  intros Hk. rewrite dict_literal_reverse.
  apply not_elem_of_list_to_map_1.
  rewrite fmap_reverse, elem_of_reverse. exact Hk.
Qed.

Lemma METHODS_lookup E k v :
  NoDup (method_codes (const E)) →
  (k, v) ∈ [(TELLSTICK_TURNON (const E), "turn on");
            (TELLSTICK_TURNOFF (const E), "turn off");
            (TELLSTICK_BELL (const E), "bell");
            (TELLSTICK_TOGGLE (const E), "toggle");
            (TELLSTICK_DIM (const E), "dim");
            (TELLSTICK_LEARN (const E), "learn");
            (TELLSTICK_EXECUTE (const E), "execute");
            (TELLSTICK_UP (const E), "up");
            (TELLSTICK_DOWN (const E), "down");
            (TELLSTICK_STOP (const E), "stop")] →
  method_string E k = v.
Proof.
  intros Hnd Hin. unfold method_string, METHODS.
  rewrite (dict_literal_lookup _ k v); [reflexivity | exact Hnd | exact Hin].
Qed.

(** C9: when the ten method codes are pairwise distinct, the method-name
    lookup of [device_event] gives each of them its lowercase name, and it
    gives every other integer the text [UNKNOWN METHOD] followed by the
    code in decimal. *)
Theorem method_string_table (E : Env) :
  NoDup (method_codes (const E)) →
  method_string E (TELLSTICK_TURNON (const E)) = "turn on" ∧
  method_string E (TELLSTICK_TURNOFF (const E)) = "turn off" ∧
  method_string E (TELLSTICK_BELL (const E)) = "bell" ∧
  method_string E (TELLSTICK_TOGGLE (const E)) = "toggle" ∧
  method_string E (TELLSTICK_DIM (const E)) = "dim" ∧
  method_string E (TELLSTICK_LEARN (const E)) = "learn" ∧
  method_string E (TELLSTICK_EXECUTE (const E)) = "execute" ∧
  method_string E (TELLSTICK_UP (const E)) = "up" ∧
  method_string E (TELLSTICK_DOWN (const E)) = "down" ∧
  method_string E (TELLSTICK_STOP (const E)) = "stop" ∧
  ∀ code, code ∉ method_codes (const E) →
          method_string E code = "UNKNOWN METHOD " +:+ pretty code.
Proof.
  intros Hnd.
  repeat match goal with
         | |- _ ∧ _ => split
         | |- method_string _ _ = _ =>
             apply METHODS_lookup; [exact Hnd | set_solver]
         end.
  intros code Hcode. unfold method_string, METHODS.
  rewrite dict_literal_lookup_None; [reflexivity | exact Hcode].
Qed.

Lemma method_string_table_witness :
  NoDup (method_codes (const test_env)) ∧
  method_string test_env 16 = "dim" ∧
  method_string test_env 3 = "UNKNOWN METHOD 3".
Proof.
  assert (Hnd : NoDup (method_codes (const test_env))).
  { compute_done. }
  split; [exact Hnd |].
  pose proof (method_string_table test_env Hnd) as H.
  split.
  - apply H.
  - apply (proj2 (proj2 (proj2 (proj2 (proj2 (proj2 (proj2 (proj2 (proj2 (proj2 H)))))))))).
    compute_done.
Defined.

(** ** The inbound command router *)

Lemma bind_ret {A B} (a : A) (f : A → M B) : mret a ≫= f = f a.
Proof. unfold mbind, M_bind, mret, M_ret. cbn. by destruct (f a). Qed.

Lemma bind_raise {A B} (e : Exn) (f : A → M B) : raise e ≫= f = raise e.
Proof. reflexivity. Qed.

Lemma bind_emit {B} (e : Event) (f : unit → M B) :
  emit e ≫= f = Run (e :: trace (f tt)) (outcome (f tt)).
Proof. reflexivity. Qed.

Lemma bind_command {B} E (cmd : Command) (f : bool → M B) :
  command E cmd ≫= f =
  match d_command E cmd with
  | inl e => Run [Call cmd] (inl e)
  | inr status => Run (Call cmd :: trace (f status)) (outcome (f status))
  end.
Proof. unfold command, mbind, M_bind. cbn. by destruct (d_command E cmd). Qed.

(** One step of a run of the router: the next statement is executed, by
    cases on what it reads from the environment. *)
Ltac run_step :=
  first
    [ rewrite bind_ret
    | rewrite bind_raise
    | rewrite bind_emit
    | rewrite bind_command
    | match goal with
      | H : ?x = _ |- context [match ?x with _ => _ end] => rewrite H
      | H : ?x = _ |- context [if ?x then _ else _] => rewrite H
      | |- context [match bytes_decode ?E ?p with _ => _ end] =>
          destruct (bytes_decode E p) eqn:?
      | |- context [match py_int ?E ?t with _ => _ end] =>
          destruct (py_int E t) eqn:?
      | |- context [match ?l !! ?i with _ => _ end] =>
          destruct (l !! i) eqn:?
      | |- context [if String.eqb ?a ?b then _ else _] =>
          destruct (String.eqb a b) eqn:?
      | |- context [if Z.eqb ?a ?b then _ else _] =>
          destruct (Z.eqb a b) eqn:?
      | |- context [match d_command ?E ?c with _ => _ end] =>
          destruct (d_command E c) eqn:?
      end ];
  cbn [trace outcome negb].

Ltac run_router :=
  unfold on_message, payload_decode, int, index; repeat run_step.

Lemma payload_int_Some E msg n :
  payload_int E msg = Some n →
  ∃ text, bytes_decode E (payload msg) = Some text ∧ py_int E text = Some n.
Proof.
  unfold payload_int. destruct (bytes_decode E (payload msg)) as [text|]; [| done].
  intros H. by exists text.
Qed.

Lemma payload_int_None E msg :
  payload_int E msg = None →
  bytes_decode E (payload msg) = None ∨
  ∃ text, bytes_decode E (payload msg) = Some text ∧ py_int E text = None.
Proof.
  unfold payload_int. destruct (bytes_decode E (payload msg)) as [text|]; [| by left].
  intros H. right. by exists text.
Qed.

(** Closing a case of a run: the tests that the case assumed decide it. *)
Ltac close_case :=
  cbn in *;
  repeat match goal with
         | H : (_ =? _)%string = true |- _ => apply String.eqb_eq in H
         | H : (_ =? _)%string = false |- _ => apply String.eqb_neq in H
         | H : (_ =? _)%Z = true |- _ => apply Z.eqb_eq in H
         | H : (_ =? _)%Z = false |- _ => apply Z.eqb_neq in H
         end;
  first [ reflexivity | congruence | done ].




(** C10: the device id of every command that the router invokes is the
    second segment of the topic, as [split] cut it: no conversion, no
    validation stands between the topic and the controller. *)
Theorem on_message_device_id_verbatim (E : Env) (msg : Message) (cmd : Command) :
  cmd ∈ calls (trace (on_message E msg)) →
  split "/" (topic msg) !! 1%nat = Some (command_device_id cmd).
Proof.
  run_router; cbn; rewrite ?elem_of_nil, ?list_elem_of_singleton;
    first [ tauto | by intros -> ].
Qed.

Lemma on_message_device_id_verbatim_witness :
  split "/" "telldus/kitchen lamp/switch/set" !! 1%nat = Some "kitchen lamp".
Proof.
  refine (on_message_device_id_verbatim test_env
            {| topic := "telldus/kitchen lamp/switch/set"; payload := "1" |}
            (turn_on "kitchen lamp") _).
  vm_compute. left.
Defined.

(** C1, as the code has it: a message whose topic has fewer than four
    segments, or whose payload does not decode to an integer, ends the
    router with an exception, and each fault has its own.  Payload bytes
    that are no text raise [UnicodeDecodeError] before anything is
    logged.  Otherwise the receipt is logged at level info and is the
    whole trace: a topic of fewer than four segments then raises
    [IndexError], and a text that is no integer, on a topic of four
    segments or more, raises [ValueError].  No controller command is
    invoked and no record is logged at level error. *)
Theorem on_message_malformed_raises (E : Env) (msg : Message) :
  (length (split "/" (topic msg)) < 4)%nat ∨ payload_int E msg = None →
  let run := on_message E msg in
  calls (trace run) = [] ∧
  logged ERROR (trace run) = [] ∧
  match bytes_decode E (payload msg) with
  | None => trace run = [] ∧ outcome run = inl UnicodeDecodeError
  | Some text =>
      trace run =
        [Log INFO ("Received " +:+ q "%s" +:+ " from " +:+ q "%s" +:+ " topic")
             [AVal (VStr text); AVal (VStr (topic msg))]] ∧
      outcome run =
        inl (if bool_decide (length (split "/" (topic msg)) < 4)%nat
             then IndexError else ValueError)
  end.
Proof.
  intros Hbad. cbv zeta.
  destruct (bytes_decode E (payload msg)) as [text|] eqn:Hd.
  - case_bool_decide as Hlen.
    + assert (H3 : split "/" (topic msg) !! 3%nat = None)
        by (apply lookup_ge_None; lia).
      clear Hbad. unfold on_message, payload_decode, int, index.
      rewrite Hd, H3. repeat run_step; repeat split.
    + assert (Hint : py_int E text = None).
      { destruct Hbad as [Hshort | Hpayload]; [lia |].
        unfold payload_int in Hpayload. rewrite Hd in Hpayload. exact Hpayload. }
      clear Hbad. unfold on_message, payload_decode, int, index.
      rewrite Hd. repeat run_step;
        first
          [ by repeat split
          | exfalso;
            match goal with
            | H : _ !! _ = None |- _ => apply lookup_ge_None in H; lia
            end ].
  - clear Hbad. unfold on_message, payload_decode, int, index.
    rewrite Hd. repeat run_step. repeat split.
Qed.

Lemma on_message_malformed_raises_witness :
  let msg := {| topic := "telldus/5/switch/set"; payload := "on" |} in
  calls (trace (on_message test_env msg)) = [] ∧
  logged ERROR (trace (on_message test_env msg)) = [] ∧
  trace (on_message test_env msg) =
    [Log INFO ("Received " +:+ q "%s" +:+ " from " +:+ q "%s" +:+ " topic")
         [AVal (VStr "on"); AVal (VStr "telldus/5/switch/set")]] ∧
  outcome (on_message test_env msg) = inl ValueError.
Proof.
  cbv zeta.
  apply (on_message_malformed_raises test_env
           {| topic := "telldus/5/switch/set"; payload := "on" |}).
  right. reflexivity.
Defined.

(** C1 fails on a message that the subscription delivers: the topic has
    four segments and ends in [set], the payload is the text [on].  The
    router logs the receipt, then [int] raises [ValueError]: the handler
    does not return and nothing is logged at level error, where the claim
    has one error record and a normal return. *)
Lemma on_message_bad_payload_raises :
  let msg := {| topic := "telldus/5/switch/set"; payload := "on" |} in
  split "/" (topic msg) = ["telldus"; "5"; "switch"; "set"] ∧
  payload_int test_env msg = None ∧
  outcome (on_message test_env msg) = inl ValueError ∧
  logged ERROR (trace (on_message test_env msg)) = [] ∧
  ¬ (calls (trace (on_message test_env msg)) = [] ∧
     length (logged ERROR (trace (on_message test_env msg))) = 1%nat ∧
     returns (on_message test_env msg)).
Proof.
  cbv zeta. repeat split.
  intros (_ & Hlog & _). vm_compute in Hlog. discriminate.
Qed.

(** A capability that is none of [light], [brightness] and [switch] gets
    the unsupported-command record at level error and no controller
    command. *)
Lemma on_message_unknown_module E msg prefix device_id module_ action n :
  split "/" (topic msg) = [prefix; device_id; module_; action] →
  payload_int E msg = Some n →
  module_ ∉ ["light"; "brightness"; "switch"] →
  calls (trace (on_message E msg)) = [] ∧
  logged ERROR (trace (on_message E msg)) =
    [("[DEVICE] Command " +:+ q "%s"
      +:+ " not supported, please open a github issue with this message.",
      [AMsg msg])] ∧
  outcome (on_message E msg) = inr tt.
Proof.
  intros Hsplit (text & Hdecode & Hint)%payload_int_Some Hmod.
  unfold on_message, payload_decode, int, index.
  rewrite Hsplit, Hdecode; cbn [lookup list_lookup].
  repeat run_step; try (repeat split; reflexivity);
    exfalso; apply Hmod;
    repeat match goal with
           | H : (_ =? _)%string = true |- _ => apply String.eqb_eq in H
           end; subst; set_solver.
Qed.

(** The [switch] capability with a payload that is neither code: the
    router invokes nothing and logs nothing beyond the receipt. *)
Lemma on_message_switch_other_payload E msg prefix device_id action n :
  split "/" (topic msg) = [prefix; device_id; "switch"; action] →
  payload_int E msg = Some n →
  n ≠ TELLSTICK_TURNON (const E) →
  n ≠ TELLSTICK_TURNOFF (const E) →
  calls (trace (on_message E msg)) = [] ∧
  logged ERROR (trace (on_message E msg)) = [] ∧
  outcome (on_message E msg) = inr tt.
Proof.
  intros Hsplit (text & Hdecode & Hint)%payload_int_Some Hon%Z.eqb_neq Hoff%Z.eqb_neq.
  unfold on_message, payload_decode, int, index.
  rewrite Hsplit, Hdecode; cbn [lookup list_lookup].
  repeat run_step; close_case.
Qed.

(** C6 at [<prefix>/5/switch/set] with the payload [3], which is neither
    the turn-on code 1 nor the turn-off code 2: the run of the router is
    the receipt record alone.  The final [elif not cmd_status] hangs on
    the chain of capability tests, so it is not reached for [switch]. *)
Theorem on_message_switch_3_logs_no_error :
  let msg := {| topic := "telldus/5/switch/set"; payload := "3" |} in
  on_message test_env msg =
    Run [Log INFO ("Received " +:+ q "%s" +:+ " from " +:+ q "%s" +:+ " topic")
             [AVal (VStr "3"); AVal (VStr "telldus/5/switch/set")]]
        (inr tt) ∧
  logged ERROR (trace (on_message test_env msg)) = [] ∧
  calls (trace (on_message test_env msg)) = [].
Proof. cbv zeta. repeat split. Qed.

(** ** The event handlers *)

Lemma bind_Run_inr {A B} t (a : A) (f : A → M B) :
  Run t (inr a) ≫= f = Run (t ++ trace (f a)) (outcome (f a)).
Proof. reflexivity. Qed.

Lemma is_dimmer_elem id_ : is_dimmer id_ = true ↔ id_ ∈ dimmer_ids.
Proof.
  unfold is_dimmer, dimmer_ids.
  rewrite !orb_true_iff, !Z.eqb_eq, !elem_of_cons, elem_of_nil. tauto.
Qed.

Lemma is_dimmer_not_elem id_ : is_dimmer id_ = false ↔ id_ ∉ dimmer_ids.
Proof. rewrite <- is_dimmer_elem. by destruct (is_dimmer id_). Qed.

Lemma initial_publish_outcome E client topics :
  outcome (initial_publish E client topics) = inr tt.
Proof.
  induction topics as [| [[[t1 d1]|] [[t2 d2]|]] topics IH]; cbn [initial_publish config state];
    rewrite ?outcome_bind, ?publish_mqtt_outcome; cbn; rewrite ?outcome_bind; cbn;
    rewrite ?publish_mqtt_outcome; done.
Qed.

Lemma trace_ret {A} (a : A) : trace (mret a : M A) = [].
Proof. reflexivity. Qed.

Lemma outcome_ret {A} (a : A) : outcome (mret a : M A) = inr a.
Proof. reflexivity. Qed.

(** One step of a run of an event handler. *)
Ltac run_event :=
  repeat (first
    [ rewrite bind_emit
    | rewrite bind_raise
    | rewrite bind_ret
    | rewrite trace_ret
    | rewrite outcome_ret
    | rewrite bind_Run_inr
    | rewrite publish_mqtt_trace
    | rewrite publish_mqtt_outcome
    | match goal with
      | H : ?x = _ |- context [if ?x then _ else _] => rewrite H
      | |- context [if is_dimmer ?i then _ else _] => destruct (is_dimmer i) eqn:?
      | |- context [if Z.eqb ?a ?b then _ else _] => destruct (Z.eqb a b) eqn:?
      end ];
    cbn [trace outcome local app]).

(** C5: on a hardcoded dimmer id, and the three codes being distinct, a
    turn-off is published once on the light topic of the id with the data
    built from 0, a turn-on once on the light topic with the data built
    from 255, a dim once on the brightness topic with the data built from
    the event's data; off the dimmer ids, a dim is published once on the
    brightness topic with the data built from the event's data. *)
Theorem device_event_light_policy (E : Env) (id_ : Z) (data : PyVal) (cid : Z) :
  TELLSTICK_TURNON (const E) ≠ TELLSTICK_TURNOFF (const E) →
  TELLSTICK_DIM (const E) ≠ TELLSTICK_TURNOFF (const E) →
  TELLSTICK_DIM (const E) ≠ TELLSTICK_TURNON (const E) →
  let published method := publishes (trace (device_event E id_ method data cid)) in
  let light v := [(mqtt_device, create_topic (d E) id_ "light",
                   create_topic_data (d E) "light" v, true)] in
  let brightness := [(mqtt_device, create_topic (d E) id_ "brightness",
                      create_topic_data (d E) "brightness" data, true)] in
  (id_ ∈ dimmer_ids →
     published (TELLSTICK_TURNOFF (const E)) = light (VInt 0) ∧
     published (TELLSTICK_TURNON (const E)) = light (VInt 255) ∧
     published (TELLSTICK_DIM (const E)) = brightness) ∧
  (id_ ∉ dimmer_ids → published (TELLSTICK_DIM (const E)) = brightness).
Proof.
  intros Hon%Z.eqb_neq Hdim1%Z.eqb_neq Hdim2%Z.eqb_neq. cbv zeta.
  split; [intros Hid%is_dimmer_elem | intros Hid%is_dimmer_not_elem];
    repeat split; unfold device_event; rewrite Hid, ?Z.eqb_refl, ?Hon, ?Hdim1, ?Hdim2;
    run_event; reflexivity.
Qed.

Lemma device_event_light_policy_witness :
  publishes (trace (device_event test_env 8 2 (VStr "0") 0)) =
    [(mqtt_device, "telldus/8/light/state", VInt 0, true)] ∧
  publishes (trace (device_event test_env 1 16 (VStr "128") 0)) =
    [(mqtt_device, "telldus/1/brightness/state", VStr "128", true)].
Proof.
  split.
  - refine (proj1 (proj1 (device_event_light_policy test_env 8 (VStr "0") 0 _ _ _) _));
      first [ vm_compute; congruence | compute_done ].
  - refine (proj2 (device_event_light_policy test_env 1 (VStr "128") 0 _ _ _) _);
      first [ vm_compute; congruence | compute_done ].
Defined.

(** Off the dimmer ids, a method that is not a dim is published once, on
    the switch topic of the id, with the data built from the method
    code. *)
Lemma device_event_switch E id_ method data cid :
  id_ ∉ dimmer_ids →
  method ≠ TELLSTICK_DIM (const E) →
  publishes (trace (device_event E id_ method data cid)) =
    [(mqtt_device, create_topic (d E) id_ "switch",
      create_topic_data (d E) "switch" (VInt method), true)] ∧
  outcome (device_event E id_ method data cid) = inr tt.
Proof.
  intros Hid%is_dimmer_not_elem Hdim%Z.eqb_neq.
  unfold device_event. rewrite Hid, Hdim; run_event; split; reflexivity.
Qed.

(** On a dimmer id, a method that is none of turn-off, turn-on and dim
    binds neither [topic] nor [topic_data]: the call of [publish_mqtt]
    raises [UnboundLocalError] and nothing is published. *)
Lemma device_event_dimmer_unbound E id_ method data cid :
  id_ ∈ dimmer_ids →
  method ≠ TELLSTICK_TURNOFF (const E) →
  method ≠ TELLSTICK_TURNON (const E) →
  method ≠ TELLSTICK_DIM (const E) →
  publishes (trace (device_event E id_ method data cid)) = [] ∧
  outcome (device_event E id_ method data cid) = inl (UnboundLocalError "topic").
Proof.
  intros Hid%is_dimmer_elem H1%Z.eqb_neq H2%Z.eqb_neq H3%Z.eqb_neq.
  unfold device_event. rewrite Hid, H1, H2, H3; run_event; split; reflexivity.
Qed.

(** C3 at the dimmer id 8 with the method bell (code 4): the handler logs
    the event, then raises [UnboundLocalError] at the unbound [topic];
    nothing is published, where the claim has one publish on the switch
    topic. *)
Theorem device_event_dimmer_bell_raises :
  device_event test_env 8 4 (VStr EmptyString) 0 =
    Run [Log DEBUG "[DEVICE EVENT DIMMER LIGHT] %s" [AVal (VStr "[DEVICE] 8 -> bell (4)")]]
        (inl (UnboundLocalError "topic")) ∧
  publishes (trace (device_event test_env 8 4 (VStr EmptyString) 0)) = [].
Proof. split; reflexivity. Qed.

Lemma publishes_log lvl fmt args t : publishes (Log lvl fmt args :: t) = publishes t.
Proof. reflexivity. Qed.

(** C2, as the code has it: [device_event] builds every topic it
    publishes from the device id and one of the capabilities [light],
    [brightness] and [switch], so the text for an unknown method goes to
    the log only; [sensor_event] on a data type that [TYPES] does not
    hold logs the text [UNKNOWN METHOD] followed by the code, then builds
    the topic and the data of its state publish from that same text and
    publishes them: the run returns, topic construction is not refused. *)
Theorem unknown_code_topics (E : Env) :
  (∀ id_ method data cid p,
     p ∈ publishes (trace (device_event E id_ method data cid)) →
     ∃ capability, capability ∈ ["light"; "brightness"; "switch"] ∧
                   p.1.1.2 = create_topic (d E) id_ capability) ∧
  (∀ protocol model id_ data_type value timestamp cid,
     TYPES E !! data_type = None →
     let sentinel := "UNKNOWN METHOD " +:+ pretty data_type in
     let run := sensor_event E protocol model id_ data_type value timestamp cid in
     head (trace run) =
       Some (Log DEBUG ("[SENSOR] " +:+ pretty id_ +:+ " " +:+ py_str model
                        +:+ " (" +:+ sentinel +:+ ") = " +:+ py_str value) []) ∧
     last (publishes (trace run)) =
       Some (mqtt_sensor, create_topic (s E) id_ sentinel,
             create_topic_data (s E) sentinel value, true) ∧
     outcome run = inr tt).
Proof.
  split.
  - intros id_ method data cid p. unfold device_event.
    run_event; cbn; rewrite ?elem_of_nil, ?list_elem_of_singleton;
      first [ tauto | intros -> ]; eexists; (split; [| reflexivity]);
      rewrite !elem_of_cons; tauto.
  - intros protocol model id_ data_type value timestamp cid Hunknown. cbv zeta.
    unfold sensor_event, type_string. rewrite Hunknown. cbn [default].
    rewrite bind_emit. cbn [trace outcome head].
    rewrite publishes_log, trace_bind, outcome_bind, initial_publish_outcome.
    rewrite publish_mqtt_outcome, publishes_app, publish_mqtt_trace.
    split; [reflexivity | split; [| reflexivity]].
    destruct (client_publish E _ _ _ _ =? 0); apply last_snoc.
Qed.

Lemma unknown_code_topics_witness :
  last (publishes (trace (sensor_event test_env (VStr "fineoffset") (VStr "temperature")
                            1 99 (VStr "42") 0 0))) =
    Some (mqtt_sensor, "telldus/1/UNKNOWN METHOD 99/state", VStr "42", true) ∧
  ∃ capability, capability ∈ ["light"; "brightness"; "switch"] ∧
                "telldus/5/switch/state" = create_topic (d test_env) 5 capability.
Proof.
  split.
  - refine (proj1 (proj2 (proj2 (unknown_code_topics test_env)
              (VStr "fineoffset") (VStr "temperature") 1 99 (VStr "42") 0 0 _))).
    reflexivity.
  - refine (proj1 (unknown_code_topics test_env) 5 99 (VStr EmptyString) 0
              (mqtt_device, "telldus/5/switch/state", VInt 99, true) _).
    vm_compute. left.
Defined.

(** C2 fails at a sensor event of data type 99, which is no key of
    [TYPES]: with the topic builder of the spec, the state publish goes to
    a topic one segment of which is the text for the unknown code. *)
Lemma sensor_event_unknown_type_topic :
  let run := sensor_event test_env (VStr "fineoffset") (VStr "temperature")
               1 99 (VStr "42") 0 0 in
  TYPES test_env !! 99 = None ∧
  publishes (trace run) =
    [(mqtt_sensor, "telldus/1/UNKNOWN METHOD 99/state", VStr "42", true)] ∧
  "UNKNOWN METHOD 99" ∈ split "/" "telldus/1/UNKNOWN METHOD 99/state" ∧
  outcome run = inr tt.
Proof.
  cbv zeta. split; [reflexivity | split; [reflexivity | split; [| reflexivity]]].
  compute_done.
Qed.

(** ** The publishes of [initial_publish] *)

Lemma publish_mqtt_publishes E client tpc msg :
  publishes (trace (publish_mqtt E client tpc msg)) = [(client, tpc, msg, true)].
Proof.
  rewrite publish_mqtt_trace.
  destruct (client_publish E client tpc msg true =? 0); reflexivity.
Qed.

Lemma publish_mqtt_errors E client tpc msg :
  logged ERROR (trace (publish_mqtt E client tpc msg)) =
  (λ p, ("Failed to send message to topic " +:+ q "%s", [AVal (VStr p.1.1.2)]))
    <$> refused E [(client, tpc, msg, true)].
Proof.
  rewrite publish_mqtt_trace. unfold refused.
  rewrite filter_cons, filter_nil. cbn [fst snd].
  destruct (Z.eqb_spec (client_publish E client tpc msg true) 0) as [Hz | Hnz].
  - rewrite decide_False by (intros Hne; apply Hne, Hz). reflexivity.
  - rewrite decide_True by exact Hnz. reflexivity.
Qed.

Lemma logged_app lvl t1 t2 : logged lvl (t1 ++ t2) = logged lvl t1 ++ logged lvl t2.
Proof. apply omap_app. Qed.

Lemma initial_publish_cons E client tpc topics :
  trace (initial_publish E client (tpc :: topics)) =
  match config tpc with
  | Some (t, data) => trace (publish_mqtt E client t data)
  | None => []
  end ++
  match state tpc with
  | Some (t, data) => trace (publish_mqtt E client t data)
  | None => []
  end ++
  trace (initial_publish E client topics).
Proof.
  cbn [initial_publish].
  destruct (config tpc) as [[t1 d1]|], (state tpc) as [[t2 d2]|];
    rewrite !trace_bind, ?outcome_bind, ?publish_mqtt_outcome; cbn;
    rewrite ?publish_mqtt_outcome; cbn; rewrite ?app_assoc; reflexivity.
Qed.

Lemma initial_publish_owed E client topics :
  publishes (trace (initial_publish E client topics)) = owed client topics.
Proof.
  induction topics as [| tpc topics IH]; [reflexivity |].
  rewrite initial_publish_cons, !publishes_app, IH.
  unfold owed. cbn [mbind list_bind]. rewrite <- app_assoc.
  destruct (config tpc) as [[t1 d1]|], (state tpc) as [[t2 d2]|];
    rewrite ?publish_mqtt_publishes; reflexivity.
Qed.

(** [initial_publish] publishes, on the client it is given and in the
    order of the list, the config entry and then the state entry of every
    topic dict, each retained, and returns; an unacknowledged publish
    stops nothing. *)
Theorem initial_publish_publishes (E : Env) (client : Client) (topics : list TopicDict) :
  publishes (trace (initial_publish E client topics)) = owed client topics ∧
  outcome (initial_publish E client topics) = inr tt.
Proof.
  split.
  - apply initial_publish_owed.
  - apply initial_publish_outcome.
Qed.

(** [initial_publish] logs one error record for every publish that the
    broker did not acknowledge with 0, in the order of the publishes, and
    no other error record. *)
Theorem initial_publish_errors (E : Env) (client : Client) (topics : list TopicDict) :
  logged ERROR (trace (initial_publish E client topics)) =
  (λ p, ("Failed to send message to topic " +:+ q "%s", [AVal (VStr p.1.1.2)]))
    <$> refused E (owed client topics).
Proof.
  induction topics as [| tpc topics IH]; [reflexivity |].
  rewrite initial_publish_cons, !logged_app, IH.
  unfold owed at 2. cbn [mbind list_bind]. fold (owed client topics).
  unfold refused. rewrite !filter_app, !fmap_app, <- app_assoc.
  destruct (config tpc) as [[t1 d1]|], (state tpc) as [[t2 d2]|];
    rewrite ?publish_mqtt_errors; reflexivity.
Qed.

(** Sweeping two lists of topic dicts one after the other is sweeping
    their concatenation. *)
Theorem initial_publish_app (E : Env) (client : Client) (topics1 topics2 : list TopicDict) :
  trace (initial_publish E client (topics1 ++ topics2)) =
  trace (initial_publish E client topics1) ++ trace (initial_publish E client topics2) ∧
  trace (initial_publish E client topics1 ;; initial_publish E client topics2) =
  trace (initial_publish E client (topics1 ++ topics2)).
Proof.
  assert (Happ : trace (initial_publish E client (topics1 ++ topics2)) =
                 trace (initial_publish E client topics1) ++
                 trace (initial_publish E client topics2)).
  { induction topics1 as [| tpc topics1 IH]; [reflexivity |].
    rewrite <- app_comm_cons, !initial_publish_cons, IH, !app_assoc. reflexivity. }
  split; [exact Happ |].
  rewrite trace_bind, initial_publish_outcome. symmetry. exact Happ.
Qed.

(** ** The sensor types *)

Lemma TYPES_lookup E k v :
  NoDup (type_codes (const E)) →
  (k, v) ∈ [(TELLSTICK_TEMPERATURE (const E), "temperature");
            (TELLSTICK_HUMIDITY (const E), "humidity");
            (TELLSTICK_RAINRATE (const E), "rainrate");
            (TELLSTICK_RAINTOTAL (const E), "raintotal");
            (TELLSTICK_WINDDIRECTION (const E), "winddirection");
            (TELLSTICK_WINDAVERAGE (const E), "windaverage");
            (TELLSTICK_WINDGUST (const E), "windgust")] →
  type_string E k = v.
Proof.
  intros Hnd Hin. unfold type_string, TYPES.
  rewrite (dict_literal_lookup _ k v); [reflexivity | exact Hnd | exact Hin].
Qed.

(** When the seven sensor type codes are pairwise distinct, the type name
    of [sensor_event] is the name of the code in [TYPES], and for every
    other integer it is the text [UNKNOWN METHOD] followed by the code. *)
Theorem type_string_table (E : Env) :
  NoDup (type_codes (const E)) →
  type_string E (TELLSTICK_TEMPERATURE (const E)) = "temperature" ∧
  type_string E (TELLSTICK_HUMIDITY (const E)) = "humidity" ∧
  type_string E (TELLSTICK_RAINRATE (const E)) = "rainrate" ∧
  type_string E (TELLSTICK_RAINTOTAL (const E)) = "raintotal" ∧
  type_string E (TELLSTICK_WINDDIRECTION (const E)) = "winddirection" ∧
  type_string E (TELLSTICK_WINDAVERAGE (const E)) = "windaverage" ∧
  type_string E (TELLSTICK_WINDGUST (const E)) = "windgust" ∧
  ∀ code, code ∉ type_codes (const E) →
          type_string E code = "UNKNOWN METHOD " +:+ pretty code.
Proof.
  intros Hnd.
  repeat match goal with
         | |- _ ∧ _ => split
         | |- type_string _ _ = _ =>
             apply TYPES_lookup; [exact Hnd | set_solver]
         end.
  intros code Hcode. unfold type_string, TYPES.
  rewrite dict_literal_lookup_None; [reflexivity | exact Hcode].
Qed.

Lemma type_string_table_witness :
  type_string test_env 2 = "humidity" ∧
  type_string test_env 3 = "UNKNOWN METHOD 3".
Proof.
  assert (Hnd : NoDup (type_codes (const test_env))) by compute_done.
  pose proof (type_string_table test_env Hnd) as H.
  split.
  - apply H.
  - apply (proj2 (proj2 (proj2 (proj2 (proj2 (proj2 (proj2 H))))))).
    compute_done.
Defined.

(** ** What each handler publishes, and where *)

(** [sensor_event] first sweeps the topic dicts that the sensor builder
    makes for the id, then publishes the state of the event, all on the
    sensor client, and returns, whatever the data type and whatever the
    broker acknowledges; it logs the event once at level debug. *)
Theorem sensor_event_publishes (E : Env) (protocol model : PyVal) (id_ data_type : Z)
    (value : PyVal) (timestamp cid : Z) :
  let run := sensor_event E protocol model id_ data_type value timestamp cid in
  publishes (trace run) =
    owed mqtt_sensor (create_topics (s E) (get (s E) (Some id_))) ++
    [(mqtt_sensor, create_topic (s E) id_ (type_string E data_type),
      create_topic_data (s E) (type_string E data_type) value, true)] ∧
  logged DEBUG (trace run) =
    [("[SENSOR] " +:+ pretty id_ +:+ " " +:+ py_str model +:+ " ("
      +:+ type_string E data_type +:+ ") = " +:+ py_str value, [])] ∧
  outcome run = inr tt.
Proof.
  cbv zeta. unfold sensor_event.
  rewrite bind_emit. cbn [trace outcome].
  rewrite trace_bind, outcome_bind, initial_publish_outcome, publish_mqtt_outcome.
  split; [| split; [| reflexivity]].
  - rewrite publishes_log, publishes_app, publish_mqtt_publishes.
    f_equal. apply initial_publish_owed.
  - match goal with
    | |- logged _ (?e :: ?t) = _ => change (e :: t) with ([e] ++ t)
    end.
    rewrite !logged_app.
    assert (Hsweep : ∀ client topics, logged DEBUG (trace (initial_publish E client topics)) = []).
    { intros client topics. induction topics as [| tpc topics IH]; [reflexivity |].
      rewrite initial_publish_cons, !logged_app, IH.
      destruct (config tpc) as [[t1 d1]|], (state tpc) as [[t2 d2]|];
        rewrite ?publish_mqtt_trace;
        repeat match goal with
               | |- context [if ?b then _ else _] => destruct b
               end; reflexivity. }
    rewrite Hsweep, publish_mqtt_trace.
    destruct (client_publish E _ _ _ _ =? 0); reflexivity.
Qed.

(** [raw_event] ignores a raw event whose data does not contain
    [command]: nothing is logged or published.  Otherwise it sweeps the
    topic dicts that the command builder makes for the data, then
    publishes the binary sensor state of the serialized id and method, on
    the command client, and returns. *)
Theorem raw_event_publishes (E : Env) (data : string) (controller_id cid : Z) :
  let run := raw_event E data controller_id cid in
  (str_in "command" data = false → trace run = []) ∧
  (str_in "command" data = true →
     publishes (trace run) =
       owed mqtt_command (create_topics (raw E) (get (raw E) data)) ++
       [(mqtt_command,
         create_topic (raw E) (raw_serialized E data "id") "binary_sensor",
         create_topic_data (raw E) "binary_sensor" (raw_serialized E data "method"),
         true)]) ∧
  outcome run = inr tt.
Proof.
  cbv zeta. unfold raw_event.
  destruct (str_in "command" data); cbn [negb].
  - split; [discriminate | split; [intros _ | ]].
    + rewrite trace_bind, initial_publish_outcome, publishes_app, publish_mqtt_publishes.
      f_equal. apply initial_publish_owed.
    + rewrite outcome_bind, initial_publish_outcome. apply publish_mqtt_outcome.
  - split; [reflexivity | split; [discriminate | reflexivity]].
Qed.

Lemma raw_event_publishes_witness :
  trace (raw_event test_env "class:sensor;protocol:fineoffset;id:7;" 1 0) = [] ∧
  publishes (trace (raw_event test_env "class:command;protocol:arctech;" 1 0)) =
    [(mqtt_command, "telldus/0/binary_sensor/state", VInt 0, true)].
Proof.
  split.
  - refine (proj1 (raw_event_publishes test_env
                     "class:sensor;protocol:fineoffset;id:7;" 1 0) _).
    reflexivity.
  - refine (proj1 (proj2 (raw_event_publishes test_env
                            "class:command;protocol:arctech;" 1 0)) _).
    reflexivity.
Defined.

(** The start-up sweep publishes what every known sensor asks for on the
    sensor client, then what every known device asks for on the device
    client, and returns. *)
Theorem startup_publishes (E : Env) :
  publishes (trace (startup E)) =
    owed mqtt_sensor (create_topics (s E) (get (s E) None)) ++
    owed mqtt_device (create_topics (d E) (get (d E) tt)) ∧
  outcome (startup E) = inr tt.
Proof.
  unfold startup. rewrite trace_bind, outcome_bind, !initial_publish_outcome.
  split; [| reflexivity].
  rewrite publishes_app. f_equal; apply initial_publish_owed.
Qed.

(** ** What the router does with every message *)

(** [on_message] returns normally exactly when the topic has at least
    four segments, the payload decodes to an integer, and the controller
    command it invokes, if any, returns: nothing else makes it raise, and
    nothing it raises is caught. *)
Theorem on_message_returns_iff (E : Env) (msg : Message) :
  returns (on_message E msg) ↔
  (4 ≤ length (split "/" (topic msg)))%nat ∧
  is_Some (payload_int E msg) ∧
  ∀ cmd, cmd ∈ calls (trace (on_message E msg)) → ∃ status, d_command E cmd = inr status.
Proof.
  unfold returns, payload_int.
  run_router; cbn [mbind option_bind calls omap list_omap].
  all: split;
    [ intros [? Hret]; try discriminate Hret
    | intros (Hlen & Hint & Hctl) ].
  all: try (destruct Hint as [? Hint]; discriminate Hint).
  all: try match goal with
       | H : _ !! _ = None |- _ => apply lookup_ge_None in H; lia
       | H : py_int _ _ = None, H' : is_Some (py_int _ _) |- _ =>
           rewrite H in H'; destruct H' as [? H']; discriminate H'
       end.
  all: try (eexists; reflexivity).
  all: try (exfalso; edestruct Hctl as [? Hst]; [left | congruence]).
  all: repeat split;
       [ match goal with
         | H : _ !! 3%nat = Some _ |- _ => apply lookup_lt_Some in H; lia
         end
       | eauto
       | intros cmd; rewrite ?elem_of_nil, ?list_elem_of_singleton;
         first [ tauto | intros ->; eauto ] ].
Qed.

Lemma on_message_returns_iff_witness :
  returns (on_message test_env {| topic := "telldus/5/light/set"; payload := "0" |}) ∧
  ¬ returns (on_message failing_env {| topic := "telldus/5/light/set"; payload := "0" |}).
Proof.
  split.
  - apply (proj2 (on_message_returns_iff test_env
                    {| topic := "telldus/5/light/set"; payload := "0" |})).
    split; [compute_done | split; [by eexists | intros cmd _; by eexists]].
  - intros Hret.
    apply (proj1 (on_message_returns_iff failing_env
                    {| topic := "telldus/5/light/set"; payload := "0" |})) in Hret.
    destruct Hret as (_ & _ & Hctl).
    destruct (Hctl (turn_off "5")) as [status Hstatus]; [vm_compute; left |].
    discriminate Hstatus.
Defined.

(** [on_message] invokes at most one controller command per message, and
    when that command raises, the router ends with the same exception. *)
Theorem on_message_one_call_at_most (E : Env) (msg : Message) :
  (length (calls (trace (on_message E msg))) ≤ 1)%nat ∧
  ∀ cmd e, cmd ∈ calls (trace (on_message E msg)) →
           d_command E cmd = inl e → outcome (on_message E msg) = inl e.
Proof.
  run_router; cbn;
    (split; [lia |]); intros cmd exn;
    rewrite ?elem_of_nil, ?list_elem_of_singleton;
    first [ tauto | intros -> ?; congruence ].
Qed.

Lemma on_message_one_call_at_most_witness :
  outcome (on_message failing_env {| topic := "telldus/5/brightness/set"; payload := "128" |}) =
  inl (ControllerError (dim "5" 128)).
Proof.
  refine (proj2 (on_message_one_call_at_most failing_env
                   {| topic := "telldus/5/brightness/set"; payload := "128" |})
            (dim "5" 128) _ _ _).
  - vm_compute. left.
  - reflexivity.
Defined.

(** On the [light] capability an action that is neither [dim] nor [set]
    is reported at level info: no controller command is invoked and no
    error is logged. *)
Theorem on_message_unknown_light_action (E : Env) (msg : Message)
    (prefix device_id action : string) (rest : list string) (n : Z) :
  split "/" (topic msg) = prefix :: device_id :: "light" :: action :: rest →
  payload_int E msg = Some n →
  action ≠ "dim" → action ≠ "set" →
  calls (trace (on_message E msg)) = [] ∧
  logged ERROR (trace (on_message E msg)) = [] ∧
  last (logged INFO (trace (on_message E msg))) =
    Some ("[DEVICE] Unknown light action " +:+ q "%s", [AVal (VStr action)]) ∧
  outcome (on_message E msg) = inr tt.
Proof.
  intros Hsplit (text & Hdecode & Hint)%payload_int_Some
         Hdim%String.eqb_neq Hset%String.eqb_neq.
  unfold on_message, payload_decode, int, index.
  rewrite Hsplit, Hdecode; cbn [lookup list_lookup].
  repeat run_step; cbn in *; first [ discriminate | repeat split ].
Qed.

Lemma on_message_unknown_light_action_witness :
  calls (trace (on_message test_env {| topic := "telldus/5/light/toggle"; payload := "1" |})) = [].
Proof.
  refine (proj1 (on_message_unknown_light_action test_env
                   {| topic := "telldus/5/light/toggle"; payload := "1" |}
                   "telldus" "5" "toggle" [] 1 _ _ _ _));
    first [ reflexivity | discriminate ].
Defined.

(** ** Which handler touches what *)

Lemma Forall_trace_bind {A B} (P : Event → Prop) (m : M A) (f : A → M B) :
  Forall P (trace m) → (∀ a, Forall P (trace (f a))) → Forall P (trace (m ≫= f)).
Proof.
  intros Hm Hf. rewrite trace_bind.
  destruct (outcome m); [assumption | by apply Forall_app_2].
Qed.

Lemma Forall_trace_publish_mqtt E client tpc msg :
  Forall (stays_on client) (trace (publish_mqtt E client tpc msg)).
Proof.
  rewrite publish_mqtt_trace.
  destruct (client_publish E client tpc msg true =? 0); repeat constructor.
Qed.

Lemma Forall_trace_initial_publish E client topics :
  Forall (stays_on client) (trace (initial_publish E client topics)).
Proof.
  induction topics as [| tpc topics IH]; [constructor |].
  rewrite initial_publish_cons.
  destruct (config tpc) as [[t1 d1]|], (state tpc) as [[t2 d2]|];
    rewrite !Forall_app; repeat split;
    first [ assumption | apply Forall_trace_publish_mqtt | constructor ].
Qed.

(** One step through a handler, for a property that every event of its
    trace is to have. *)
Ltac each_event :=
  match goal with
  | |- Forall _ (trace (publish_mqtt _ _ _ _)) => apply Forall_trace_publish_mqtt
  | |- Forall _ (trace (initial_publish _ _ _)) => apply Forall_trace_initial_publish
  | |- Forall _ (trace (_ ≫= _)) => apply Forall_trace_bind; [| intros ? ]
  | |- Forall _ (trace (emit (Log _ _ _))) => apply Forall_singleton; exact I
  | |- Forall _ (trace (command _ _)) => apply Forall_singleton; exact I
  | |- Forall _ (trace (mret _)) => apply Forall_nil_2
  | |- Forall _ (trace (raise _)) => apply Forall_nil_2
  | |- Forall _ (trace (index _ _)) => unfold index
  | |- Forall _ (trace (local _ ?v)) => is_var v; destruct v
  | |- Forall _ (trace (local _ _)) => apply Forall_nil_2
  | |- Forall _ (trace (payload_decode _ _)) => unfold payload_decode
  | |- Forall _ (trace (int _ _)) => unfold int
  | |- Forall _ (trace (if ?b then _ else _)) => destruct b
  | |- Forall _ (trace (match ?x with _ => _ end)) => destruct x
  end.

(** The three event handlers keep to their own client and never invoke a
    controller command: [device_event] publishes on the device client
    only, [sensor_event] on the sensor client only, [raw_event] on the
    command client only; and the router [on_message] publishes nothing,
    so a command never echoes as a state from the router itself. *)
Theorem handlers_keep_apart (E : Env) :
  (∀ id_ method data cid,
     Forall (stays_on mqtt_device) (trace (device_event E id_ method data cid))) ∧
  (∀ protocol model id_ data_type value timestamp cid,
     Forall (stays_on mqtt_sensor)
       (trace (sensor_event E protocol model id_ data_type value timestamp cid))) ∧
  (∀ data controller_id cid,
     Forall (stays_on mqtt_command) (trace (raw_event E data controller_id cid))) ∧
  (∀ msg, Forall no_publish (trace (on_message E msg))).
Proof.
  repeat split; intros.
  - unfold device_event. repeat each_event.
  - unfold sensor_event. repeat each_event.
  - unfold raw_event. repeat each_event.
  - unfold on_message. repeat each_event.
Qed.

(** ** The outcome of a device event *)

(** [device_event] logs the event once at level debug.  On a hardcoded
    dimmer id with a method that is none of turn-off, turn-on and dim it
    then raises [UnboundLocalError] for [topic] and publishes nothing; in
    every other case it publishes exactly once and returns. *)
Theorem device_event_outcome (E : Env) (id_ method : Z) (data : PyVal) (cid : Z) :
  let run := device_event E id_ method data cid in
  length (logged DEBUG (trace run)) = 1%nat ∧
  if bool_decide (id_ ∈ dimmer_ids ∧ method ∉ dimmer_methods (const E))
  then outcome run = inl (UnboundLocalError "topic") ∧ publishes (trace run) = []
  else outcome run = inr tt ∧ length (publishes (trace run)) = 1%nat.
Proof.
  cbv zeta. unfold device_event. case_bool_decide as Hbad.
  - destruct Hbad as [Hid%is_dimmer_elem Hm].
    unfold dimmer_methods in Hm. rewrite !not_elem_of_cons in Hm.
    destruct Hm as (H1%Z.eqb_neq & H2%Z.eqb_neq & H3%Z.eqb_neq & _).
    rewrite Hid, H1, H2, H3. run_event. repeat split.
  - run_event;
      first
        [ by repeat split
        | exfalso; apply Hbad; split;
          [ by apply is_dimmer_elem
          | unfold dimmer_methods; rewrite !not_elem_of_cons;
            repeat split; try (by apply Z.eqb_neq); apply not_elem_of_nil ] ].
Qed.

(** ** Topics and their prefix *)

Lemma append_assoc (a b c : string) : (a +:+ b) +:+ c = a +:+ b +:+ c.
Proof.
  induction a as [| x a IH]; [reflexivity |].
  change (String x ((a +:+ b) +:+ c) = String x (a +:+ b +:+ c)).
  by rewrite IH.
Qed.

Lemma split_slash_free text : slash_free text = true → split "/" text = [text].
Proof.
  induction text as [| a text IH]; [reflexivity |].
  cbn [slash_free split]. intros [Ha Htext]%andb_true_iff.
  apply negb_true_iff in Ha. rewrite Ha, (IH Htext). reflexivity.
Qed.

Lemma split_segment text rest :
  slash_free text = true →
  split "/" (text +:+ "/" +:+ rest) = text :: split "/" rest.
Proof.
  induction text as [| a text IH]; [reflexivity |].
  cbn [slash_free]. intros [Ha Htext]%andb_true_iff.
  apply negb_true_iff in Ha.
  change (String a text +:+ "/" +:+ rest) with (String a (text +:+ "/" +:+ rest)).
  cbn [split]. rewrite Ha, (IH Htext). reflexivity.
Qed.

(** The router reads the segments at the fixed positions 1, 2 and 3.
    Under a prefix without a slash the segment after the prefix is the
    device id: a brightness command reaches that device.  Under a prefix
    [a/b] every position is off by one: whatever command is invoked goes
    to the device [b], and when the real device id names no capability
    the message is refused as unsupported and no command is invoked. *)
Theorem on_message_prefix_segments (E : Env)
    (a b device_id capability bytes : string) (n : Z) :
  slash_free a = true → slash_free b = true →
  slash_free device_id = true → slash_free capability = true →
  bytes_decode E bytes ≫= py_int E = Some n →
  let under prefix :=
    {| topic := prefix +:+ "/" +:+ device_id +:+ "/" +:+ capability +:+ "/set";
       payload := bytes |} in
  (capability = "brightness" →
     calls (trace (on_message E (under a))) = [dim device_id n]) ∧
  (∀ cmd, cmd ∈ calls (trace (on_message E (under (a +:+ "/" +:+ b)))) →
          command_device_id cmd = b) ∧
  (device_id ∉ ["light"; "brightness"; "switch"] →
     calls (trace (on_message E (under (a +:+ "/" +:+ b)))) = [] ∧
     length (logged ERROR (trace (on_message E (under (a +:+ "/" +:+ b))))) = 1%nat).
Proof.
  intros Ha Hb Hid Hcap Hpayload. cbv zeta.
  apply (payload_int_Some E {| topic := EmptyString; payload := bytes |})
    in Hpayload as (text & Hdecode & Hint).
  cbn [payload] in Hdecode.
  assert (Hone : split "/" (a +:+ "/" +:+ device_id +:+ "/" +:+ capability +:+ "/set")
                 = [a; device_id; capability; "set"]).
  { change "/set" with ("/" +:+ "set").
    rewrite !split_segment by assumption. reflexivity. }
  assert (Htwo : split "/" ((a +:+ "/" +:+ b) +:+ "/" +:+ device_id +:+ "/"
                            +:+ capability +:+ "/set")
                 = [a; b; device_id; capability; "set"]).
  { change "/set" with ("/" +:+ "set").
    rewrite !append_assoc.
    rewrite !split_segment by assumption. reflexivity. }
  split; [| split].
  - intros ->. unfold on_message, payload_decode, int, index. cbn [topic payload].
    rewrite Hone, Hdecode. cbn [lookup list_lookup].
    repeat run_step; close_case.
  - intros cmd. unfold on_message, payload_decode, int, index. cbn [topic payload].
    rewrite Htwo, Hdecode. cbn [lookup list_lookup].
    repeat run_step; cbn; rewrite ?elem_of_nil, ?list_elem_of_singleton;
      first [ tauto | by intros -> ].
  - intros Hname. unfold on_message, payload_decode, int, index. cbn [topic payload].
    rewrite Htwo, Hdecode. cbn [lookup list_lookup].
    repeat run_step; try (split; reflexivity);
      exfalso; apply Hname;
      repeat match goal with
             | H : (_ =? _)%string = true |- _ => apply String.eqb_eq in H
             end; subst; rewrite !elem_of_cons; tauto.
Qed.

Lemma on_message_prefix_segments_witness :
  calls (trace (on_message test_env
                  {| topic := "telldus/5/brightness/set"; payload := "128" |})) =
    [dim "5" 128] ∧
  calls (trace (on_message test_env
                  {| topic := "home/telldus/5/brightness/set"; payload := "128" |})) = [].
Proof.
  split.
  - refine (proj1 (on_message_prefix_segments test_env
                     "telldus" "telldus" "5" "brightness" "128" 128 _ _ _ _ _) _);
      reflexivity.
  - refine (proj1 (proj2 (proj2 (on_message_prefix_segments test_env
                     "home" "telldus" "5" "brightness" "128" 128 _ _ _ _ _)) _));
      first [ reflexivity | compute_done ].
Defined.

(** ** The halves of the policies that hold everywhere *)

Lemma device_event_switch_witness :
  publishes (trace (device_event test_env 5 1 (VStr EmptyString) 0)) =
    [(mqtt_device, "telldus/5/switch/state", VInt 1, true)] ∧
  outcome (device_event test_env 5 1 (VStr EmptyString) 0) = inr tt.
Proof.
  apply (device_event_switch test_env 5 1 (VStr EmptyString) 0).
  - compute_done.
  - vm_compute. congruence.
Defined.

Lemma on_message_unknown_module_witness :
  calls (trace (on_message test_env {| topic := "telldus/5/cover/set"; payload := "1" |})) = [] ∧
  length (logged ERROR
            (trace (on_message test_env {| topic := "telldus/5/cover/set"; payload := "1" |})))
    = 1%nat.
Proof.
  destruct (on_message_unknown_module test_env
              {| topic := "telldus/5/cover/set"; payload := "1" |}
              "telldus" "5" "cover" "set" 1) as (Hcalls & Herr & _).
  - reflexivity.
  - reflexivity.
  - compute_done.
  - split; [exact Hcalls | by rewrite Herr].
Defined.
